(** * PhotonUtils: a shallow embedding of [photonutils/__init__.py]

    The module is one Python class, [PhotonUtils], holding six class
    methods over [float] and over the geometry classes of
    [wpimath.geometry].  The embedding keeps what the claims depend on:

    - Python's call protocol: a [classmethod] receives the class as its
      first positional argument, and a call whose argument count differs
      from the parameter count raises [TypeError];
    - Python's attribute protocol: looking up a name a class does not
      provide raises [AttributeError];
    - Python's [float]: [x / y] raises [ZeroDivisionError] when [y == 0.0],
      [math.tan] raises [ValueError] on a domain error;
    - the arithmetic itself and the geometry classes, which the module
      imports, as interfaces ([Arith], [Geometry]).  The arithmetic of the
      program is IEEE binary64 ([Binary64.arith], what CPython runs on), and
      the properties of the class are stated in it.  Exact real arithmetic
      ([Exact.arith]) is an idealisation, not the program's: it serves
      beside binary64 where a formula is read mathematically, and to show
      that the laws assumed of the geometry library can be met. *)

From Stdlib Require Import String List ZArith Bool Lia.
From Stdlib Require Import Reals Lra.
From Stdlib Require Import Floats.
Import ListNotations.

Local Open Scope string_scope.
Local Open Scope list_scope.

(** ** Exceptions and results *)

Module Py.

(** The exceptions the module's code can run into. *)
Inductive exn : Set :=
| TypeError
| AttributeError
| ZeroDivisionError
| ValueError.

(** The outcome of evaluating an expression or a call. *)
Inductive result (A : Type) : Type :=
| Return (a : A)
| Raise (e : exn).

Arguments Return {A} a.
Arguments Raise {A} e.

Definition bind {A B : Type} (m : result A) (k : A -> result B) : result B :=
  match m with
  | Return a => k a
  | Raise e => Raise e
  end.

Definition returns {A : Type} (m : result A) : Prop :=
  exists a, m = Return a.

End Py.

Export Py.

Declare Scope py_scope.
Delimit Scope py_scope with py.
Notation "x <- m ;; k" := (bind m (fun x => k))
  (at level 61, m at next level, right associativity) : py_scope.
Local Open Scope py_scope.

(** ** The arithmetic of [float]

    [quot] is the raw quotient; the zero test of Python's [/] is
    [is_zero] (so [-0.0] counts as zero and a NaN does not).  [math_tan] is
    [math.tan], which can raise. *)

Record Arith : Type := {
  num :> Type;
  zero : num;
  one : num;
  add : num -> num -> num;
  sub : num -> num -> num;
  mul : num -> num -> num;
  quot : num -> num -> num;
  neg : num -> num;
  is_zero : num -> bool;
  math_tan : num -> result num
}.

(** ** The geometry classes imported from [wpimath.geometry]

    Only the operations the module's code uses are part of the interface:
    [Rotation2d.cos], [Rotation2d.sin], unary minus and [-] on rotations,
    the constructors [Translation2d(x, y)] and
    [Transform2d(translation, rotation)], [Transform2d.inverse],
    [Pose2d.transformBy], [Transform3d.inverse] and [Pose3d + Transform3d];
    [Transform2d()] and [Transform3d()] are the identity transforms. *)

Record Geometry (F : Type) : Type := {
  Rotation2d : Type;
  Translation2d : Type;
  Transform2d : Type;
  Pose2d : Type;
  Transform3d : Type;
  Pose3d : Type;
  rotation2d_cos : Rotation2d -> F;
  rotation2d_sin : Rotation2d -> F;
  rotation2d_neg : Rotation2d -> Rotation2d;
  rotation2d_sub : Rotation2d -> Rotation2d -> Rotation2d;
  translation2d_new : F -> F -> Translation2d;
  transform2d_new : Translation2d -> Rotation2d -> Transform2d;
  transform2d_identity : Transform2d;
  transform2d_inverse : Transform2d -> Transform2d;
  pose2d_transformBy : Pose2d -> Transform2d -> Pose2d;
  transform3d_identity : Transform3d;
  transform3d_inverse : Transform3d -> Transform3d;
  pose3d_add : Pose3d -> Transform3d -> Pose3d
}.

Arguments Rotation2d {F} _.
Arguments Translation2d {F} _.
Arguments Transform2d {F} _.
Arguments Pose2d {F} _.
Arguments Transform3d {F} _.
Arguments Pose3d {F} _.
Arguments rotation2d_cos {F} _ _.
Arguments rotation2d_sin {F} _ _.
Arguments rotation2d_neg {F} _ _.
Arguments rotation2d_sub {F} _ _ _.
Arguments translation2d_new {F} _ _ _.
Arguments transform2d_new {F} _ _ _.
Arguments transform2d_identity {F} _.
Arguments transform2d_inverse {F} _ _.
Arguments pose2d_transformBy {F} _ _ _.
Arguments transform3d_identity {F} _.
Arguments transform3d_inverse {F} _ _.
Arguments pose3d_add {F} _ _ _.

(** The laws of the identity transforms that the 3D estimator's identity
    property rests on. *)
Record Transform3dLaws {F : Type} (G : Geometry F) : Prop := {
  inverse_identity3 :
    transform3d_inverse G (transform3d_identity G) = transform3d_identity G;
  add_identity3 :
    forall p : Pose3d G, pose3d_add G p (transform3d_identity G) = p
}.

(** And of the 2D ones. *)
Record Transform2dLaws {F : Type} (G : Geometry F) : Prop := {
  transformBy_identity2 :
    forall p : Pose2d G, pose2d_transformBy G p (transform2d_identity G) = p
}.

(** ** Python values, attribute lookup, operators and calls *)

Section Model.

Context {A : Arith} {G : Geometry A}.

(** The objects the module handles.  [VClass] is the class object
    [PhotonUtils], which a class method receives as [cls]. *)
Inductive value : Type :=
| VFloat (x : A)
| VClass
| VRotation2d (r : Rotation2d G)
| VTranslation2d (t : Translation2d G)
| VTransform2d (t : Transform2d G)
| VPose2d (p : Pose2d G)
| VTransform3d (t : Transform3d G)
| VPose3d (p : Pose3d G).

(** The methods the module's code looks up by name, on the class that
    provides each of them.  No class here provides [getRotation]. *)
Definition methods (v : value) : list string :=
  match v with
  | VRotation2d _ => ["cos"; "sin"]
  | VTransform2d _ => ["inverse"]
  | VPose2d _ => ["transformBy"]
  | VTransform3d _ => ["inverse"]
  | VFloat _ | VClass | VTranslation2d _ | VPose3d _ => []
  end.

(** Calling the bound method [self.name] on [args]. *)
Definition call_method (self : value) (name : string) (args : list value)
  : result value :=
  match self, args with
  | VRotation2d r, [] =>
      if name =? "cos" then Return (VFloat (rotation2d_cos G r))
      else if name =? "sin" then Return (VFloat (rotation2d_sin G r))
      else Raise TypeError
  | VTransform2d t, [] =>
      if name =? "inverse" then Return (VTransform2d (transform2d_inverse G t))
      else Raise TypeError
  | VPose2d p, [VTransform2d t] =>
      if name =? "transformBy"
      then Return (VPose2d (pose2d_transformBy G p t))
      else Raise TypeError
  | VTransform3d t, [] =>
      if name =? "inverse" then Return (VTransform3d (transform3d_inverse G t))
      else Raise TypeError
  | _, _ => Raise TypeError
  end.

(** [self.name]: the bound method, or [AttributeError]. *)
Definition getattr (self : value) (name : string)
  : result (list value -> result value) :=
  if existsb (String.eqb name) (methods self)
  then Return (call_method self name)
  else Raise AttributeError.

(** Unary minus. *)
Definition py_neg (a : value) : result value :=
  match a with
  | VFloat x => Return (VFloat (neg A x))
  | VRotation2d r => Return (VRotation2d (rotation2d_neg G r))
  | _ => Raise TypeError
  end.

(** [a - b]. *)
Definition py_sub (a b : value) : result value :=
  match a, b with
  | VFloat x, VFloat y => Return (VFloat (sub A x y))
  | VRotation2d r, VRotation2d s => Return (VRotation2d (rotation2d_sub G r s))
  | _, _ => Raise TypeError
  end.

(** [a + b]. *)
Definition py_add (a b : value) : result value :=
  match a, b with
  | VFloat x, VFloat y => Return (VFloat (add A x y))
  | VPose3d p, VTransform3d t => Return (VPose3d (pose3d_add G p t))
  | _, _ => Raise TypeError
  end.

(** [a * b]. *)
Definition py_mul (a b : value) : result value :=
  match a, b with
  | VFloat x, VFloat y => Return (VFloat (mul A x y))
  | _, _ => Raise TypeError
  end.

(** [a / b]: [float.__truediv__] raises on a zero divisor. *)
Definition py_truediv (a b : value) : result value :=
  match a, b with
  | VFloat x, VFloat y =>
      if is_zero A y then Raise ZeroDivisionError
      else Return (VFloat (quot A x y))
  | _, _ => Raise TypeError
  end.

(** [math.tan(a)]. *)
Definition tan (a : value) : result value :=
  match a with
  | VFloat x => x' <- math_tan A x ;; Return (VFloat x')
  | _ => Raise TypeError
  end.

(** The constructor call [Translation2d(x, y)]. *)
Definition Translation2d_ (x y : value) : result value :=
  match x, y with
  | VFloat x, VFloat y => Return (VTranslation2d (translation2d_new G x y))
  | _, _ => Raise TypeError
  end.

(** The constructor call [Transform2d(translation, rotation)]. *)
Definition Transform2d_ (t r : value) : result value :=
  match t, r with
  | VTranslation2d t, VRotation2d r =>
      Return (VTransform2d (transform2d_new G t r))
  | _, _ => Raise TypeError
  end.

(** A function object: its parameter names, in order, and its body on the
    values bound to them. *)
Record pyfunction : Type := def {
  params : list string;
  body : list value -> result value
}.

(** A call with positional arguments: one argument per parameter, or
    [TypeError] (the module defines no defaults and no [*args]). *)
Definition call (f : pyfunction) (args : list value) : result value :=
  if Nat.eqb (List.length args) (List.length (params f))
  then body f args
  else Raise TypeError.

(** [PhotonUtils.f(args)] for [f] decorated with [@classmethod]: the class
    is passed as the first positional argument. *)
Definition classmethod (f : pyfunction) (args : list value) : result value :=
  call f (VClass :: args).

(** ** The class [PhotonUtils] *)

(** Lines 14-40. *)
Definition calculateDisanceToTargetMeters : pyfunction :=
  def ["cls"; "cameraHeightMeters"; "targetHeightMeters";
       "cameraPitchRadians"; "targetPitchRadians"]
    (fun args =>
       match args with
       | [cls; cameraHeightMeters; targetHeightMeters;
          cameraPitchRadians; targetPitchRadians] =>
           d <- py_sub targetHeightMeters cameraHeightMeters ;;
           s <- py_add cameraPitchRadians targetPitchRadians ;;
           t <- tan s ;;
           py_truediv d t
       | _ => Raise TypeError
       end).

(** Lines 42-57. *)
Definition estimateCameraToTargetTranslation : pyfunction :=
  def ["cls"; "targetDistanceMeters"; "yaw"]
    (fun args =>
       match args with
       | [cls; targetDistanceMeters; yaw] =>
           cos <- getattr yaw "cos" ;;
           c <- cos [] ;;
           x <- py_mul c targetDistanceMeters ;;
           sin <- getattr yaw "sin" ;;
           s <- sin [] ;;
           y <- py_mul s targetDistanceMeters ;;
           Translation2d_ x y
       | _ => Raise TypeError
       end).

(** Lines 80-93.  The parameter list is the source's: there is no [cls]. *)
Definition estimateFieldToCamera : pyfunction :=
  def ["cameraToTarget"; "fieldToTarget"]
    (fun args =>
       match args with
       | [cameraToTarget; fieldToTarget] =>
           transformBy <- getattr fieldToTarget "transformBy" ;;
           inverse <- getattr cameraToTarget "inverse" ;;
           i <- inverse [] ;;
           transformBy [i]
       | _ => Raise TypeError
       end).

(** Lines 59-78. *)
Definition estimateFieldToRobot : pyfunction :=
  def ["cls"; "cameraToTarget"; "fieldToTarget"; "cameraToRobot"]
    (fun args =>
       match args with
       | [cls; cameraToTarget; fieldToTarget; cameraToRobot] =>
           fieldToCamera <-
             classmethod estimateFieldToCamera [cameraToTarget; fieldToTarget] ;;
           transformBy <- getattr fieldToCamera "transformBy" ;;
           transformBy [cameraToRobot]
       | _ => Raise TypeError
       end).

(** Lines 95-104. *)
Definition estimateCameraToTarget : pyfunction :=
  def ["cls"; "cameraToTargetTranslation"; "fieldToTarget"; "gyroAngle"]
    (fun args =>
       match args with
       | [cls; cameraToTargetTranslation; fieldToTarget; gyroAngle] =>
           g <- py_neg gyroAngle ;;
           getRotation <- getattr fieldToTarget "getRotation" ;;
           r <- getRotation [] ;;
           rotation <- py_sub g r ;;
           Transform2d_ cameraToTargetTranslation rotation
       | _ => Raise TypeError
       end).

(** Lines 106-113. *)
Definition estimateFieldToRobotAprilTag : pyfunction :=
  def ["cls"; "cameraToTarget"; "fieldRelativeTagPose"; "cameraToRobot"]
    (fun args =>
       match args with
       | [cls; cameraToTarget; fieldRelativeTagPose; cameraToRobot] =>
           inverse <- getattr cameraToTarget "inverse" ;;
           i <- inverse [] ;;
           fieldToCamera <- py_add fieldRelativeTagPose i ;;
           py_add fieldToCamera cameraToRobot
       | _ => Raise TypeError
       end).

End Model.

Arguments value : clear implicits.
Arguments pyfunction : clear implicits.

(** ** IEEE binary64 arithmetic: the [float] of CPython *)

Module Binary64.

(** 90 and 45 degrees in radians, as [math.radians] rounds them. *)
Definition radians_90 : float := 0x1.921fb54442d18p+0%float.
Definition radians_45 : float := 0x1.921fb54442d18p-1%float.

(** The cosine of 90 degrees as rounded: [math.cos(math.radians(90))] where
    the platform's [cos] rounds correctly, about 6.1e-17. *)
Definition cos_radians_90 : float := 0x1.1a62633145c07p-54%float.

(** The largest finite [float]. *)
Definition max_float : float := 0x1.fffffffffffffp+1023%float.

(** The sign bit of a [float] (of a NaN: [false]). *)
Definition sign_bit (x : float) : bool :=
  match Prim2SF x with
  | S754_zero s | S754_infinity s | S754_finite s _ _ => s
  | S754_nan => false
  end.

(** A zero, a finite number or an infinity of sign [s]: not a NaN. *)
Inductive signed (s : bool) : spec_float -> Prop :=
| signed_zero : signed s (S754_zero s)
| signed_infinity : signed s (S754_infinity s)
| signed_finite m e : signed s (S754_finite s m e).

Section Libm.

(** The platform's [tan], which C leaves to the implementation. *)
Variable libm_tan : float -> float.

(** [math.tan]: CPython calls the platform's [tan] and turns a NaN
    produced from a number, or an infinity produced from a finite
    number, into [ValueError: math domain error]. *)
Definition float_tan (x : float) : result float :=
  let r := libm_tan x in
  if is_nan r && negb (is_nan x) then Raise ValueError
  else if is_infinity r && is_finite x then Raise ValueError
  else Return r.

Definition arith : Arith := {|
  num := float;
  zero := PrimFloat.zero;
  one := PrimFloat.one;
  add := PrimFloat.add;
  sub := PrimFloat.sub;
  mul := PrimFloat.mul;
  quot := PrimFloat.div;
  neg := PrimFloat.opp;
  is_zero := PrimFloat.is_zero;
  math_tan := float_tan
|}.

End Libm.

(** What C (Annex F) fixes of [tan]: a zero is returned unchanged. *)
Definition tan_of_zero (libm_tan : float -> float) : Prop :=
  libm_tan 0%float = 0%float.

(** A [tan] for running the model on concrete inputs, where a libm is
    needed: the quotient of the Taylor series of sine and cosine in Horner
    form, [horner n k x2] being
    [1 - x2/(k(k+1)) (1 - x2/((k+2)(k+3)) (...))] with [n] factors.  It is
    accurate for arguments of small magnitude and returns a zero
    unchanged. *)
Fixpoint horner (n : nat) (k x2 : float) : float :=
  match n with
  | O => 1
  | S n' => 1 - x2 / (k * (k + 1)) * horner n' (k + 2) x2
  end%float.

Definition sample_tan (x : float) : float :=
  (x * horner 14 2 (x * x) / horner 14 1 (x * x))%float.


(** What the mathematics of the tangent asks of the platform's [tan] on the
    angles strictly between 0 and 90 degrees: a positive, finite value (the
    largest is the tangent of [radians_90], about 1.6e16). *)
Definition tan_positive_on_acute (libm_tan : float -> float) : Prop :=
  forall x : float,
    (0 <? x)%float = true -> (x <? radians_90)%float = true ->
    (0 <? libm_tan x)%float = true /\ (libm_tan x <? infinity)%float = true.


(** [sample_tan] kept within that contract: strictly between 0 and 90
    degrees, where the quotient of the series is not positive and finite
    (next to 90 degrees its denominator vanishes) it saturates at the
    largest [float]. *)
Definition saturated_tan (x : float) : float :=
  let t := sample_tan x in
  if (0 <? x)%float && (x <? radians_90)%float
     && negb ((0 <? t)%float && (t <? infinity)%float)
  then max_float
  else t.

End Binary64.

(** ** Exact real arithmetic: an idealisation

    No rounding, overflow, underflow, NaN or signed zero: this is not the
    arithmetic of the program, and no property of the class rests on it
    alone. *)

Module Exact.

Definition real_is_zero (x : R) : bool :=
  if Req_dec_T x 0 then true else false.

(** The tangent is undefined where the cosine vanishes: a domain error. *)
Definition real_tan (x : R) : result R :=
  if Req_dec_T (Rtrigo_def.cos x) 0 then Raise ValueError
  else Return (Rtrigo1.tan x).

Definition arith : Arith := {|
  num := R;
  zero := 0%R;
  one := 1%R;
  add := Rplus;
  sub := Rminus;
  mul := Rmult;
  quot := Rdiv;
  neg := Ropp;
  is_zero := real_is_zero;
  math_tan := real_tan
|}.

End Exact.

(** ** A reference implementation of the geometry interface

    The formulas of [wpimath.geometry] for planar and spatial rigid motions,
    over any arithmetic: a planar rotation is its cosine and sine, a spatial
    one a quaternion.  Rotations are taken to be unit, so the constructors'
    normalisation is left out.  The module's code never depends on it; it
    instantiates the interface at concrete inputs and shows its laws can be
    met. *)

Declare Scope num_scope.

Module Reference.

Section Classes.

Variable A : Arith.

Local Notation "x + y" := (add A x y) : num_scope.
Local Notation "x - y" := (sub A x y) : num_scope.
Local Notation "x * y" := (mul A x y) : num_scope.
Local Notation "- x" := (neg A x) : num_scope.
Local Open Scope num_scope.

Record rotation2d : Type := { r_cos : A; r_sin : A }.
Record translation2d : Type := { t_x : A; t_y : A }.
Record transform2d : Type :=
  { tf_translation : translation2d; tf_rotation : rotation2d }.
Record pose2d : Type :=
  { p_translation : translation2d; p_rotation : rotation2d }.

Definition rotation2d_neg (r : rotation2d) : rotation2d :=
  {| r_cos := r_cos r; r_sin := - r_sin r |}.

Definition rotation2d_rotateBy (r o : rotation2d) : rotation2d :=
  {| r_cos := r_cos r * r_cos o - r_sin r * r_sin o;
     r_sin := r_cos r * r_sin o + r_sin r * r_cos o |}.

Definition rotation2d_sub (r o : rotation2d) : rotation2d :=
  rotation2d_rotateBy r (rotation2d_neg o).

Definition translation2d_neg (t : translation2d) : translation2d :=
  {| t_x := - t_x t; t_y := - t_y t |}.

Definition translation2d_add (t u : translation2d) : translation2d :=
  {| t_x := t_x t + t_x u; t_y := t_y t + t_y u |}.

Definition translation2d_rotateBy (t : translation2d) (r : rotation2d)
  : translation2d :=
  {| t_x := t_x t * r_cos r - t_y t * r_sin r;
     t_y := t_x t * r_sin r + t_y t * r_cos r |}.

Definition transform2d_identity : transform2d :=
  {| tf_translation := {| t_x := zero A; t_y := zero A |};
     tf_rotation := {| r_cos := one A; r_sin := zero A |} |}.

Definition transform2d_inverse (t : transform2d) : transform2d :=
  {| tf_translation :=
       translation2d_rotateBy (translation2d_neg (tf_translation t))
         (rotation2d_neg (tf_rotation t));
     tf_rotation := rotation2d_neg (tf_rotation t) |}.

Definition pose2d_transformBy (p : pose2d) (t : transform2d) : pose2d :=
  {| p_translation :=
       translation2d_add (p_translation p)
         (translation2d_rotateBy (tf_translation t) (p_rotation p));
     p_rotation := rotation2d_rotateBy (tf_rotation t) (p_rotation p) |}.

Record quaternion : Type := { q_w : A; q_x : A; q_y : A; q_z : A }.
Record translation3d : Type := { t3_x : A; t3_y : A; t3_z : A }.
Record transform3d : Type :=
  { tf3_translation : translation3d; tf3_rotation : quaternion }.
Record pose3d : Type :=
  { p3_translation : translation3d; p3_rotation : quaternion }.

Definition quaternion_mul (p q : quaternion) : quaternion :=
  {| q_w := q_w p * q_w q - q_x p * q_x q - q_y p * q_y q - q_z p * q_z q;
     q_x := q_w p * q_x q + q_x p * q_w q + q_y p * q_z q - q_z p * q_y q;
     q_y := q_w p * q_y q - q_x p * q_z q + q_y p * q_w q + q_z p * q_x q;
     q_z := q_w p * q_z q + q_x p * q_y q - q_y p * q_x q + q_z p * q_w q |}.

Definition quaternion_inverse (q : quaternion) : quaternion :=
  {| q_w := q_w q; q_x := - q_x q; q_y := - q_y q; q_z := - q_z q |}.

Definition translation3d_neg (t : translation3d) : translation3d :=
  {| t3_x := - t3_x t; t3_y := - t3_y t; t3_z := - t3_z t |}.

Definition translation3d_add (t u : translation3d) : translation3d :=
  {| t3_x := t3_x t + t3_x u; t3_y := t3_y t + t3_y u;
     t3_z := t3_z t + t3_z u |}.

Definition translation3d_rotateBy (t : translation3d) (r : quaternion)
  : translation3d :=
  let p := {| q_w := zero A; q_x := t3_x t; q_y := t3_y t; q_z := t3_z t |} in
  let q := quaternion_mul (quaternion_mul r p) (quaternion_inverse r) in
  {| t3_x := q_x q; t3_y := q_y q; t3_z := q_z q |}.

Definition transform3d_identity : transform3d :=
  {| tf3_translation := {| t3_x := zero A; t3_y := zero A; t3_z := zero A |};
     tf3_rotation :=
       {| q_w := one A; q_x := zero A; q_y := zero A; q_z := zero A |} |}.

Definition transform3d_inverse (t : transform3d) : transform3d :=
  {| tf3_translation :=
       translation3d_rotateBy (translation3d_neg (tf3_translation t))
         (quaternion_inverse (tf3_rotation t));
     tf3_rotation := quaternion_inverse (tf3_rotation t) |}.

Definition pose3d_add (p : pose3d) (t : transform3d) : pose3d :=
  {| p3_translation :=
       translation3d_add (p3_translation p)
         (translation3d_rotateBy (tf3_translation t) (p3_rotation p));
     p3_rotation := quaternion_mul (p3_rotation p) (tf3_rotation t) |}.

Definition wpimath : Geometry A :=
  Build_Geometry A
    rotation2d translation2d transform2d pose2d transform3d pose3d
    r_cos r_sin rotation2d_neg rotation2d_sub
    Build_translation2d Build_transform2d
    transform2d_identity transform2d_inverse pose2d_transformBy
    transform3d_identity transform3d_inverse pose3d_add.

End Classes.

End Reference.

(** A [float] argument in each arithmetic. *)
Abbreviation VReal := (@VFloat Exact.arith _).
Abbreviation VFloat64 libm_tan := (@VFloat (Binary64.arith libm_tan) _).

(** * Properties *)

(** ** The reference geometry meets the identity laws in exact arithmetic *)

Ltac unfold_reference :=
  cbv [Reference.wpimath
       transform3d_inverse transform3d_identity pose3d_add
       transform2d_identity pose2d_transformBy
       Reference.transform3d_inverse Reference.transform3d_identity
       Reference.pose3d_add Reference.translation3d_rotateBy
       Reference.translation3d_neg Reference.translation3d_add
       Reference.quaternion_mul Reference.quaternion_inverse
       Reference.tf3_translation Reference.tf3_rotation
       Reference.p3_translation Reference.p3_rotation
       Reference.q_w Reference.q_x Reference.q_y Reference.q_z
       Reference.t3_x Reference.t3_y Reference.t3_z
       Reference.pose2d_transformBy Reference.transform2d_identity
       Reference.translation2d_rotateBy Reference.translation2d_add
       Reference.rotation2d_rotateBy
       Reference.tf_translation Reference.tf_rotation
       Reference.p_translation Reference.p_rotation
       Reference.r_cos Reference.r_sin Reference.t_x Reference.t_y
       Exact.arith zero one add sub mul neg].

Lemma reference_transform3d_laws :
  Transform3dLaws (Reference.wpimath Exact.arith).
Proof.
  split.
  - unfold_reference. f_equal; f_equal; lra.
  - intros [[x y z] [w a b c]]. unfold_reference. f_equal; f_equal; ring.
Qed.

Lemma reference_transform2d_laws :
  Transform2dLaws (Reference.wpimath Exact.arith).
Proof.
  split. intros [[x y] [c s]]. unfold_reference. f_equal; f_equal; ring.
Qed.

(** ** The call protocol: [estimateFieldToCamera] and its caller *)

Section CallProtocol.

Context {A : Arith} {G : Geometry A}.

(** A call passing more or fewer arguments than parameters raises
    [TypeError], whatever the body. *)
Lemma call_arity_mismatch (f : pyfunction A G) (args : list (value A G)) :
  List.length args <> List.length (params f) ->
  call f args = Raise TypeError.
Proof.
  intros H. unfold call.
  destruct (Nat.eqb_spec (List.length args) (List.length (params f)));
    [contradiction | reflexivity].
Qed.

(** Called on its two parameters, without the class in front, the body of
    [estimateFieldToCamera] is the composition the docstring describes. *)
Lemma estimateFieldToCamera_body (t : Transform2d G) (p : Pose2d G) :
  call estimateFieldToCamera [VTransform2d t; VPose2d p]
  = Return (VPose2d (pose2d_transformBy G p (transform2d_inverse G t))).
Proof. reflexivity. Qed.

(** Transforming what that body returns by the identity transform, as the
    body of [estimateFieldToRobot] goes on to do, gives it back, where the
    library's identity transform is neutral. *)
Lemma estimateFieldToCamera_body_then_identity
    (L : Transform2dLaws G) (t : Transform2d G) (p : Pose2d G) :
  (fieldToCamera <- call estimateFieldToCamera [VTransform2d t; VPose2d p] ;;
   transformBy <- getattr fieldToCamera "transformBy" ;;
   transformBy [VTransform2d (transform2d_identity G)])
  = call estimateFieldToCamera [VTransform2d t; VPose2d p].
Proof.
  rewrite estimateFieldToCamera_body. cbn.
  now rewrite (transformBy_identity2 G L).
Qed.

(** C9. A direct call [PhotonUtils.estimateFieldToCamera(a, b)] raises
    [TypeError] for every pair of arguments: the class method declares two
    parameters and no [cls], so the class and the two arguments are three
    values for two parameters.  [estimateFieldToRobot] makes that very
    call first, so every call of it raises [TypeError] too. *)
Theorem estimateFieldToCamera_always_TypeError (a b c : value A G) :
  classmethod estimateFieldToCamera [a; b] = Raise TypeError
  /\ classmethod estimateFieldToRobot [a; b; c] = Raise TypeError.
Proof. split; reflexivity. Qed.

(** C2, on the code.  For no transform and pose does
    [estimateFieldToCamera] return [fieldToTarget.transformBy(
    cameraToTarget.inverse())], and for no offset does
    [estimateFieldToRobot] return that pose transformed by
    [cameraToRobot]: neither call returns at all. *)
Theorem estimateFieldToCamera_never_returns_composition
    (t : Transform2d G) (p : Pose2d G) (r : Transform2d G) :
  classmethod estimateFieldToCamera [VTransform2d t; VPose2d p]
  <> Return (VPose2d (pose2d_transformBy G p (transform2d_inverse G t)))
  /\ classmethod estimateFieldToRobot
       [VTransform2d t; VPose2d p; VTransform2d r]
     <> Return (VPose2d (pose2d_transformBy G
                  (pose2d_transformBy G p (transform2d_inverse G t)) r)).
Proof. split; discriminate. Qed.

(** C6, on the code.  With the identity transform as [cameraToRobot],
    neither [estimateFieldToRobot(T, P, I)] nor
    [estimateFieldToCamera(T, P)] produces a value that could be compared:
    both are in the raised state. *)
Theorem estimateFieldToRobot_identity_no_value
    (t : Transform2d G) (p : Pose2d G) :
  ~ returns (classmethod estimateFieldToRobot
               [VTransform2d t; VPose2d p;
                VTransform2d (transform2d_identity G)])
  /\ ~ returns (classmethod estimateFieldToCamera
                  [VTransform2d t; VPose2d p]).
Proof. split; intros [v H]; discriminate H. Qed.

End CallProtocol.

(** ** The attribute protocol: [estimateCameraToTarget] *)

Section AttributeProtocol.

Context {A : Arith} {G : Geometry A}.

(** A [Translation2d] has no attribute [getRotation]. *)
Lemma Translation2d_has_no_getRotation (t : Translation2d G) :
  getattr (VTranslation2d t) "getRotation" = Raise AttributeError.
Proof. reflexivity. Qed.

(** C10. For every triple of a [Translation2d], a [Translation2d] and a
    [Rotation2d], [estimateCameraToTarget] raises [AttributeError]: the
    gyro angle is negated, and then [getRotation] is looked up on
    [fieldToTarget], a [Translation2d], which does not have it. *)
Theorem estimateCameraToTarget_raises_AttributeError
    (cameraToTargetTranslation fieldToTarget : Translation2d G)
    (gyroAngle : Rotation2d G) :
  classmethod estimateCameraToTarget
    [VTranslation2d cameraToTargetTranslation;
     VTranslation2d fieldToTarget; VRotation2d gyroAngle]
  = Raise AttributeError.
Proof. reflexivity. Qed.

(** C5, on the code.  On arguments of the declared types the call returns
    no [Transform2d], so none whose components are the supplied
    translation and the negated gyro angle minus a target rotation. *)
Theorem estimateCameraToTarget_returns_no_transform
    (cameraToTargetTranslation fieldToTarget : Translation2d G)
    (gyroAngle : Rotation2d G) (t : Transform2d G) :
  classmethod estimateCameraToTarget
    [VTranslation2d cameraToTargetTranslation;
     VTranslation2d fieldToTarget; VRotation2d gyroAngle]
  <> Return (VTransform2d t).
Proof. discriminate. Qed.

End AttributeProtocol.

(** ** The AprilTag estimator *)

Section AprilTag.

Context {A : Arith} {G : Geometry A}.

(** The estimator is the pose plus the inverted camera-to-target transform
    plus the camera-to-robot transform. *)
Lemma estimateFieldToRobotAprilTag_eq
    (cameraToTarget cameraToRobot : Transform3d G) (tag : Pose3d G) :
  classmethod estimateFieldToRobotAprilTag
    [VTransform3d cameraToTarget; VPose3d tag; VTransform3d cameraToRobot]
  = Return (VPose3d (pose3d_add G
              (pose3d_add G tag (transform3d_inverse G cameraToTarget))
              cameraToRobot)).
Proof. reflexivity. Qed.

(** C7. With the identity [Transform3d] as both [cameraToTarget] and
    [cameraToRobot], [estimateFieldToRobotAprilTag] returns
    [fieldRelativeTagPose] unchanged, in every geometry library in which
    the identity transform is its own inverse and adding it to a pose
    gives the pose. *)
Theorem estimateFieldToRobotAprilTag_identity
    (L : Transform3dLaws G) (fieldRelativeTagPose : Pose3d G) :
  classmethod estimateFieldToRobotAprilTag
    [VTransform3d (transform3d_identity G); VPose3d fieldRelativeTagPose;
     VTransform3d (transform3d_identity G)]
  = Return (VPose3d fieldRelativeTagPose).
Proof.
  rewrite estimateFieldToRobotAprilTag_eq.
  rewrite (inverse_identity3 G L), !(add_identity3 G L).
  reflexivity.
Qed.

End AprilTag.

(** The tag pose at (1, 2, 3) turned a quarter turn about the vertical axis
    is returned as it is. *)
Lemma estimateFieldToRobotAprilTag_identity_witness :
  let G := Reference.wpimath Exact.arith in
  let tag : Pose3d G :=
    Reference.Build_pose3d Exact.arith
      (Reference.Build_translation3d Exact.arith 1%R 2%R 3%R)
      (Reference.Build_quaternion Exact.arith
         (R_sqrt.sqrt 2 / 2)%R 0%R 0%R (R_sqrt.sqrt 2 / 2)%R) in
  classmethod estimateFieldToRobotAprilTag
    [VTransform3d (transform3d_identity G); VPose3d tag;
     VTransform3d (transform3d_identity G)]
  = Return (VPose3d tag).
Proof.
  intros G tag.
  exact (estimateFieldToRobotAprilTag_identity reference_transform3d_laws tag).
Defined.

(** ** The distance estimator *)

Section Distance.

Context {A : Arith} {G : Geometry A}.

(** On four [float]s the call computes the difference of the heights, the
    sum of the pitches and its tangent, in that order, and divides: an
    exception of [math.tan] propagates, a zero tangent makes the division
    raise, and otherwise the quotient is returned. *)
Lemma calculateDisanceToTargetMeters_eq (ch th cp tp : A) :
  classmethod calculateDisanceToTargetMeters
    [VFloat ch; VFloat th; VFloat cp; VFloat tp]
  = match math_tan A (add A cp tp) return result (value A G) with
    | Raise e => Raise e
    | Return t =>
        if is_zero A t then Raise ZeroDivisionError
        else Return (VFloat (quot A (sub A th ch) t))
    end.
Proof.
  cbn. destruct (math_tan A (add A cp tp)); reflexivity.
Qed.

End Distance.

(** *** In binary64: what the specification of the primitive floats gives *)

Lemma SFeqb_refl (x : spec_float) :
  SFeqb x x = match x with S754_nan => false | _ => true end.
Proof.
  destruct x as [s|s| |s m e]; try reflexivity.
  - destruct s; reflexivity.
  - unfold SFeqb, SFcompare.
    destruct s; rewrite Z.compare_refl, Pos.compare_cont_refl; reflexivity.
Qed.

Lemma is_nan_spec (x : float) :
  PrimFloat.is_nan x = match Prim2SF x with S754_nan => true | _ => false end.
Proof.
  unfold PrimFloat.is_nan. rewrite eqb_spec, SFeqb_refl.
  destruct (Prim2SF x); reflexivity.
Qed.

Lemma is_zero_spec (x : float) :
  PrimFloat.is_zero x
  = match Prim2SF x with S754_zero _ => true | _ => false end.
Proof.
  unfold PrimFloat.is_zero. rewrite eqb_spec.
  destruct (Prim2SF x) as [s|s| |s m e]; try reflexivity;
    destruct s; reflexivity.
Qed.

Lemma is_infinity_spec (x : float) :
  PrimFloat.is_infinity x
  = match Prim2SF x with S754_infinity _ => true | _ => false end.
Proof.
  unfold PrimFloat.is_infinity. rewrite eqb_spec, abs_spec.
  destruct (Prim2SF x) as [s|s| |s m e]; reflexivity.
Qed.

Lemma is_finite_spec (x : float) :
  PrimFloat.is_finite x
  = match Prim2SF x with S754_zero _ | S754_finite _ _ _ => true | _ => false end.
Proof.
  unfold PrimFloat.is_finite. rewrite is_nan_spec, is_infinity_spec.
  destruct (Prim2SF x); reflexivity.
Qed.

(** A [float] above zero and below infinity is a positive finite number. *)
Lemma positive_finite_spec (t : float) :
  (0 <? t)%float = true -> (t <? infinity)%float = true ->
  exists m e, Prim2SF t = S754_finite false m e.
Proof.
  rewrite !ltb_spec. change (Prim2SF 0) with (S754_zero false).
  change (Prim2SF infinity) with (S754_infinity false).
  destruct (Prim2SF t) as [s|s| |s m e]; try discriminate.
  - destruct s; discriminate.
  - destruct s; [discriminate | eauto].
Qed.

(** Multiplication of [float]s is commutative. *)
Lemma float_mul_comm (x y : float) : (x * y)%float = (y * x)%float.
Proof.
  apply Prim2SF_inj. rewrite !mul_spec. unfold SF64mul.
  destruct (Prim2SF x) as [s|s| |s m e], (Prim2SF y) as [s'|s'| |s' m' e'];
    cbn; rewrite ?(xorb_comm s s'); try reflexivity.
  now rewrite Pos.mul_comm, Z.add_comm.
Qed.

(** **** Rounding keeps the sign *)

Lemma iter_pos_invariant {T : Type} (P : T -> Prop) (f : T -> T) :
  (forall x, P x -> P (f x)) -> forall n x, P x -> P (iter_pos f n x).
Proof.
  intros Hf n. induction n as [n IH|n IH|]; intros x Hx; cbn; auto.
Qed.

Lemma shr_1_nonneg (mrs : shr_record) :
  (0 <= shr_m mrs)%Z -> (0 <= shr_m (shr_1 mrs))%Z.
Proof.
  destruct mrs as [m r s]. cbn.
  destruct m as [|p|p]; [| destruct p | ]; cbn; lia.
Qed.

Lemma shr_nonneg (mrs : shr_record) (e n : Z) :
  (0 <= shr_m mrs)%Z -> (0 <= shr_m (fst (shr mrs e n)))%Z.
Proof.
  intros H. unfold shr. destruct n; cbn; auto.
  apply (iter_pos_invariant (fun r => (0 <= shr_m r)%Z));
    auto using shr_1_nonneg.
Qed.

Lemma shr_fexp_nonneg (m e : Z) (l : location) :
  (0 <= m)%Z -> (0 <= shr_m (fst (shr_fexp prec emax m e l)))%Z.
Proof.
  intros H. unfold shr_fexp. apply shr_nonneg.
  destruct l as [|[]]; exact H.
Qed.

Lemma round_nearest_even_nonneg (m : Z) (l : location) :
  (0 <= m)%Z -> (0 <= round_nearest_even m l)%Z.
Proof.
  intros H. destruct l as [|[]]; cbn; try destruct (Z.even m); lia.
Qed.

Lemma binary_round_aux_signed (s : bool) (m e : Z) (l : location) :
  (0 <= m)%Z -> Binary64.signed s (binary_round_aux prec emax s m e l).
Proof.
  intros H. unfold binary_round_aux.
  pose proof (shr_fexp_nonneg m e l H) as H1.
  destruct (shr_fexp prec emax m e l) as [mrs' e'].
  pose proof (shr_fexp_nonneg _ e' loc_Exact
                (round_nearest_even_nonneg _ (loc_of_shr_record mrs') H1))
    as H2.
  destruct (shr_fexp prec emax _ e' loc_Exact) as [mrs'' e''].
  cbn in H2. destruct (shr_m mrs'') as [|p|p]; [constructor | | lia].
  destruct (e'' <=? emax - prec)%Z; constructor.
Qed.

Lemma SFdiv_core_binary_nonneg (mx my : positive) (ex ey : Z) :
  (0 <= fst (fst (SFdiv_core_binary prec emax (Zpos mx) ex (Zpos my) ey)))%Z.
Proof.
  unfold SFdiv_core_binary.
  set (s := (ex - ey - _)%Z).
  set (m' := match s with
             | Zpos _ => Z.shiftl (Zpos mx) s
             | Z0 => Zpos mx
             | Zneg _ => Z0
             end).
  assert (Hm : (0 <= m')%Z).
  { subst m'. destruct s; try lia. apply Z.shiftl_nonneg. lia. }
  pose proof (Z.div_pos m' (Zpos my) Hm ltac:(lia)) as Hq.
  unfold Z.div in Hq. destruct (Z.div_eucl m' (Zpos my)) as [q r]. exact Hq.
Qed.

(** Dividing a nonzero number or an infinity by a positive finite number
    gives no NaN and keeps the sign of the dividend. *)
Lemma SF64div_signed (x : spec_float) (my : positive) (ey : Z) :
  match x with
  | S754_infinity s | S754_finite s _ _ =>
      Binary64.signed s (SF64div x (S754_finite false my ey))
  | _ => True
  end.
Proof.
  destruct x as [s|s| |s m e]; try exact I.
  - cbn. rewrite xorb_false_r. constructor.
  - unfold SF64div, SFdiv.
    pose proof (SFdiv_core_binary_nonneg m my e ey) as H.
    destruct (SFdiv_core_binary prec emax (Zpos m) e (Zpos my) ey)
      as [[mz ez] lz].
    rewrite xorb_false_r. apply binary_round_aux_signed. exact H.
Qed.

(** An infinity divided by anything is an infinity or a NaN. *)
Lemma infinity_div_not_finite (t : float) :
  PrimFloat.is_finite (infinity / t) = false.
Proof.
  rewrite is_finite_spec, div_spec.
  change (Prim2SF infinity) with (S754_infinity false).
  destruct (Prim2SF t); reflexivity.
Qed.

Lemma signed_sign (s : bool) (r : spec_float) :
  Binary64.signed s r ->
  match r with S754_nan => true | _ => false end = false
  /\ match r with
     | S754_zero b | S754_infinity b | S754_finite b _ _ => b
     | S754_nan => false
     end = s.
Proof. intros []; split; reflexivity. Qed.

(** The quotient by a positive finite [float]. *)
Lemma float_div_positive (d t : float) :
  PrimFloat.is_nan d = false -> PrimFloat.is_zero d = false ->
  (0 <? t)%float = true -> (t <? infinity)%float = true ->
  PrimFloat.is_nan (d / t) = false
  /\ Binary64.sign_bit (d / t) = Binary64.sign_bit d.
Proof.
  intros Hn Hz H0 Hi.
  destruct (positive_finite_spec t H0 Hi) as (m & e & Ht).
  rewrite is_nan_spec in Hn. rewrite is_zero_spec in Hz.
  rewrite is_nan_spec. unfold Binary64.sign_bit. rewrite div_spec, Ht.
  pose proof (SF64div_signed (Prim2SF d) m e) as H.
  destruct (Prim2SF d) as [s|s| |s m' e']; try discriminate;
    exact (signed_sign _ _ H).
Qed.

(** The sign bit against the comparisons with zero. *)
Lemma ltb_zero_sign (d : float) :
  (0 <? d)%float = true -> Binary64.sign_bit d = false.
Proof.
  rewrite ltb_spec. unfold Binary64.sign_bit.
  change (Prim2SF 0) with (S754_zero false).
  destruct (Prim2SF d) as [s|s| |s m e]; try discriminate;
    destruct s; try discriminate; reflexivity.
Qed.

Lemma ltb_sign_zero (d : float) :
  (d <? 0)%float = true -> Binary64.sign_bit d = true.
Proof.
  rewrite ltb_spec. unfold Binary64.sign_bit.
  change (Prim2SF 0) with (S754_zero false).
  destruct (Prim2SF d) as [s|s| |s m e]; try discriminate;
    destruct s; try discriminate; reflexivity.
Qed.

Lemma sign_leb_zero (r : float) :
  PrimFloat.is_nan r = false -> Binary64.sign_bit r = false ->
  (0 <=? r)%float = true.
Proof.
  rewrite is_nan_spec, leb_spec. unfold Binary64.sign_bit.
  change (Prim2SF 0) with (S754_zero false).
  destruct (Prim2SF r) as [s|s| |s m e]; try discriminate;
    intros _ ->; reflexivity.
Qed.

Lemma sign_zero_leb (r : float) :
  PrimFloat.is_nan r = false -> Binary64.sign_bit r = true ->
  (r <=? 0)%float = true.
Proof.
  rewrite is_nan_spec, leb_spec. unfold Binary64.sign_bit.
  change (Prim2SF 0) with (S754_zero false).
  destruct (Prim2SF r) as [s|s| |s m e]; try discriminate;
    intros _ ->; reflexivity.
Qed.

(** [saturated_tan] is positive and finite strictly between 0 and 90
    degrees. *)
Lemma saturated_tan_positive_on_acute :
  Binary64.tan_positive_on_acute Binary64.saturated_tan.
Proof.
  intros x H0 H1. unfold Binary64.saturated_tan. rewrite H0, H1. cbn [andb].
  destruct ((0 <? Binary64.sample_tan x)%float
            && (Binary64.sample_tan x <? infinity)%float) eqn:E; cbn [negb].
  - apply andb_prop in E. exact E.
  - split; reflexivity.
Qed.

(** *** In binary64: [math.tan] and the estimator *)

Section Binary64Distance.

Variable libm_tan : float -> float.

Context {G : Geometry (Binary64.arith libm_tan)}.

Local Open Scope float_scope.

(** [math.tan] raises nothing but [ValueError]. *)
Lemma float_tan_raises (x : float) (e : exn) :
  Binary64.float_tan libm_tan x = Raise e -> e = ValueError.
Proof.
  unfold Binary64.float_tan.
  destruct (_ && _); [congruence |].
  destruct (_ && _); congruence.
Qed.

(** A positive finite tangent is returned as it is. *)
Lemma float_tan_positive_finite (x : float) :
  (0 <? libm_tan x)%float = true -> (libm_tan x <? infinity)%float = true ->
  Binary64.float_tan libm_tan x = Return (libm_tan x).
Proof.
  intros H0 Hi. destruct (positive_finite_spec _ H0 Hi) as (m & e & Ht).
  unfold Binary64.float_tan.
  rewrite (is_nan_spec (libm_tan x)), (is_infinity_spec (libm_tan x)), Ht.
  reflexivity.
Qed.

(** The tangent of [0.0], where the platform's [tan] follows C. *)
Lemma float_tan_zero :
  Binary64.tan_of_zero libm_tan ->
  Binary64.float_tan libm_tan 0 = Return 0%float.
Proof.
  intros H. unfold Binary64.tan_of_zero in H.
  unfold Binary64.float_tan. rewrite H. reflexivity.
Qed.

(** With both pitches [0.0] the division raises. *)
Lemma zero_pitch_raises (ch th : float) :
  Binary64.tan_of_zero libm_tan ->
  classmethod (G := G) calculateDisanceToTargetMeters
    [VFloat64 libm_tan ch; VFloat64 libm_tan th;
     VFloat64 libm_tan 0; VFloat64 libm_tan 0]
  = Raise ZeroDivisionError.
Proof.
  intros H. rewrite calculateDisanceToTargetMeters_eq.
  change (math_tan (Binary64.arith libm_tan)
            (add (Binary64.arith libm_tan) 0%float 0%float))
    with (Binary64.float_tan libm_tan 0).
  rewrite (float_tan_zero H). reflexivity.
Qed.

End Binary64Distance.

(** *** The formula and its fixture *)




(** In binary64 the same fixture is one over the tangent of 45 degrees as
    rounded, which a [tan] that rounds correctly puts one unit in the last
    place above 1. *)
Example calculateDisanceToTargetMeters_fixture_binary64 :
  classmethod (G := Reference.wpimath (Binary64.arith Binary64.sample_tan))
    calculateDisanceToTargetMeters
    [VFloat64 Binary64.sample_tan 0%float; VFloat64 Binary64.sample_tan 1%float;
     VFloat64 Binary64.sample_tan 0%float;
     VFloat64 Binary64.sample_tan Binary64.radians_45]
  = Return (VFloat64 Binary64.sample_tan 0x1.0000000000001p+0%float).
Proof. vm_compute. reflexivity. Qed.

(** *** Degenerate inputs *)

Section Binary64Errors.

Variable libm_tan : float -> float.

Context {G : Geometry (Binary64.arith libm_tan)}.

Local Open Scope float_scope.

(** C8, as the code has it.  [calculateDisanceToTargetMeters] validates
    nothing and catches nothing.  Whenever [math.tan] returns a nonzero
    value for the combined pitch, the call returns the quotient, whatever
    it is (an infinity and a NaN included).  It raises in two cases only:
    [ZeroDivisionError], exactly when the tangent is a zero, and what
    [math.tan] raises, which is [ValueError]. *)
Theorem calculateDisanceToTargetMeters_outcomes (ch th cp tp : float) :
  let outcome :=
    classmethod (G := G) calculateDisanceToTargetMeters
      [VFloat64 libm_tan ch; VFloat64 libm_tan th;
       VFloat64 libm_tan cp; VFloat64 libm_tan tp] in
  let tangent := Binary64.float_tan libm_tan (cp + tp) in
  (forall t, tangent = Return t -> PrimFloat.is_zero t = false ->
             outcome = Return (VFloat64 libm_tan ((th - ch) / t)))
  /\ (outcome = Raise ZeroDivisionError
      <-> exists t, tangent = Return t /\ PrimFloat.is_zero t = true)
  /\ (outcome = Raise ValueError <-> tangent = Raise ValueError)
  /\ (forall e, outcome = Raise e -> e = ZeroDivisionError \/ e = ValueError).
Proof.
  intros outcome tangent.
  assert (E : outcome
              = match tangent return result (value _ G) with
                | Raise e => Raise e
                | Return t =>
                    if PrimFloat.is_zero t then Raise ZeroDivisionError
                    else Return (VFloat64 libm_tan ((th - ch) / t))
                end)
    by exact (calculateDisanceToTargetMeters_eq
                (A := Binary64.arith libm_tan) ch th cp tp).
  pose proof (float_tan_raises libm_tan (cp + tp)) as Hv.
  fold tangent in Hv. rewrite E. clearbody tangent. clear E outcome.
  destruct tangent as [t|e]; [destruct (PrimFloat.is_zero t) eqn:Hz |].
  - split; [| split; [| split]].
    + intros t' [= <-] H. congruence.
    + split; eauto.
    + split; discriminate.
    + intros e [= <-]. auto.
  - split; [| split; [| split]].
    + intros t' [= <-] _. reflexivity.
    + split; [discriminate | intros (t' & [= <-] & H); congruence].
    + split; discriminate.
    + discriminate.
  - rewrite (Hv e eq_refl). split; [| split; [| split]].
    + discriminate.
    + split; [discriminate | intros (t' & H & _); discriminate].
    + split; reflexivity.
    + intros e' [= <-]. auto.
Qed.

End Binary64Errors.

(** With both pitches [0.0] the tangent is [0.0] and the call raises
    [ZeroDivisionError]; with a target height that overflows or is not a
    number, the infinity or NaN comes back as the result. *)
Lemma calculateDisanceToTargetMeters_outcomes_witness :
  let libm_tan := Binary64.sample_tan in
  let G := Reference.wpimath (Binary64.arith libm_tan) in
  classmethod (G := G) calculateDisanceToTargetMeters
    [VFloat64 libm_tan 0%float; VFloat64 libm_tan 1%float;
     VFloat64 libm_tan 0%float; VFloat64 libm_tan 0%float]
  = Raise ZeroDivisionError
  /\ classmethod (G := G) calculateDisanceToTargetMeters
       [VFloat64 libm_tan 0%float; VFloat64 libm_tan infinity;
        VFloat64 libm_tan 0%float; VFloat64 libm_tan 0.5%float]
     = Return (VFloat64 libm_tan infinity)
  /\ classmethod (G := G) calculateDisanceToTargetMeters
       [VFloat64 libm_tan 0%float; VFloat64 libm_tan nan;
        VFloat64 libm_tan 0%float; VFloat64 libm_tan 0.5%float]
     = Return (VFloat64 libm_tan nan).
Proof.
  intros libm_tan G. split; [| split].
  - apply (proj1 (proj2 (calculateDisanceToTargetMeters_outcomes
                           libm_tan (G := G) 0%float 1%float 0%float 0%float))).
    exists 0%float. split; reflexivity.
  - apply (proj1 (calculateDisanceToTargetMeters_outcomes
                    libm_tan (G := G) 0%float infinity 0%float 0.5%float)
             (libm_tan 0.5%float)); reflexivity.
  - apply (proj1 (calculateDisanceToTargetMeters_outcomes
                    libm_tan (G := G) 0%float nan 0%float 0.5%float)
             (libm_tan 0.5%float)); reflexivity.
Defined.

(** C8 fails as stated: [calculateDisanceToTargetMeters(0.0, 1.0, 0.0, 0.0)]
    raises [ZeroDivisionError], and with no [tan] that maps [0.0] to [0.0]
    does it return a value. *)
Lemma calculateDisanceToTargetMeters_zero_tangent_raises :
  classmethod
    (G := Reference.wpimath (Binary64.arith Binary64.sample_tan))
    calculateDisanceToTargetMeters
    [VFloat64 Binary64.sample_tan 0%float; VFloat64 Binary64.sample_tan 1%float;
     VFloat64 Binary64.sample_tan 0%float; VFloat64 Binary64.sample_tan 0%float]
  = Raise ZeroDivisionError
  /\ ~ exists libm_tan : float -> float,
         Binary64.tan_of_zero libm_tan
         /\ returns
              (classmethod
                 (G := Reference.wpimath (Binary64.arith libm_tan))
                 calculateDisanceToTargetMeters
                 [VFloat64 libm_tan 0%float; VFloat64 libm_tan 1%float;
                  VFloat64 libm_tan 0%float; VFloat64 libm_tan 0%float]).
Proof.
  split.
  - vm_compute. reflexivity.
  - intros (libm_tan & H & v & Hv).
    rewrite (zero_pitch_raises libm_tan _ _ H) in Hv. discriminate.
Qed.

(** *** Finiteness and sign *)

Section Binary64Sign.

Variable libm_tan : float -> float.

Context {G : Geometry (Binary64.arith libm_tan)}.

Local Open Scope float_scope.

(** C4, as the code has it.  Where the platform's [tan] is positive and
    finite on the angles strictly between 0 and 90 degrees: for heights
    whose difference is neither zero nor a NaN, and pitches whose sum lies
    strictly between 0 and 90 degrees, the call returns a [float] that is
    not a NaN and never has the sign opposite to the height difference.  It
    carries the sign bit of the difference, so it is at least zero for a
    target above the camera and at most zero for one below.  Nothing makes
    it finite, and nothing keeps it from being a zero. *)
Theorem calculateDisanceToTargetMeters_sign (ch th cp tp : float) :
  Binary64.tan_positive_on_acute libm_tan ->
  PrimFloat.is_nan (th - ch) = false ->
  PrimFloat.is_zero (th - ch) = false ->
  (0 <? cp + tp) = true ->
  (cp + tp <? Binary64.radians_90) = true ->
  exists r : float,
    classmethod (G := G) calculateDisanceToTargetMeters
      [VFloat64 libm_tan ch; VFloat64 libm_tan th;
       VFloat64 libm_tan cp; VFloat64 libm_tan tp]
    = Return (VFloat64 libm_tan r)
    /\ PrimFloat.is_nan r = false
    /\ Binary64.sign_bit r = Binary64.sign_bit (th - ch)
    /\ ((0 <? th - ch) = true -> (0 <=? r) = true)
    /\ ((th - ch <? 0) = true -> (r <=? 0) = true).
Proof.
  intros Htan Hn Hz Hs0 Hs1.
  destruct (Htan (cp + tp) Hs0 Hs1) as [H0 Hi].
  exists ((th - ch) / libm_tan (cp + tp)).
  destruct (float_div_positive (th - ch) (libm_tan (cp + tp)) Hn Hz H0 Hi)
    as [Hr Hsign].
  split; [| split; [exact Hr | split; [exact Hsign | split]]].
  - rewrite calculateDisanceToTargetMeters_eq.
    change (math_tan (Binary64.arith libm_tan)
              (add (Binary64.arith libm_tan) cp tp))
      with (Binary64.float_tan libm_tan (cp + tp)).
    rewrite (float_tan_positive_finite libm_tan _ H0 Hi).
    destruct (positive_finite_spec _ H0 Hi) as (m & e & Ht).
    change (is_zero (Binary64.arith libm_tan) (libm_tan (cp + tp)))
      with (PrimFloat.is_zero (libm_tan (cp + tp))).
    rewrite is_zero_spec, Ht. reflexivity.
  - intros Hd. apply sign_leb_zero; [exact Hr |].
    rewrite Hsign. apply ltb_zero_sign, Hd.
  - intros Hd. apply sign_zero_leb; [exact Hr |].
    rewrite Hsign. apply ltb_sign_zero, Hd.
Qed.

End Binary64Sign.

(** A camera at 0.5 m, a target at 2.5 m, pitches of 0.25 and 0.5 rad. *)
Lemma calculateDisanceToTargetMeters_sign_witness :
  let libm_tan := Binary64.saturated_tan in
  exists r : float,
    classmethod (G := Reference.wpimath (Binary64.arith libm_tan))
      calculateDisanceToTargetMeters
      [VFloat64 libm_tan 0.5%float; VFloat64 libm_tan 2.5%float;
       VFloat64 libm_tan 0.25%float; VFloat64 libm_tan 0.5%float]
    = Return (VFloat64 libm_tan r)
    /\ PrimFloat.is_nan r = false
    /\ Binary64.sign_bit r = Binary64.sign_bit (2.5 - 0.5)%float
    /\ ((0 <? 2.5 - 0.5)%float = true -> (0 <=? r)%float = true)
    /\ ((2.5 - 0.5 <? 0)%float = true -> (r <=? 0)%float = true).
Proof.
  intros libm_tan.
  apply (calculateDisanceToTargetMeters_sign libm_tan
           (G := Reference.wpimath (Binary64.arith libm_tan))
           0.5%float 2.5%float 0.25%float 0.5%float
           saturated_tan_positive_on_acute); reflexivity.
Defined.

(** C4 fails as stated.  The heights [-max] and [max], the largest finite
    [float], differ by a nonzero amount, and the pitches 0 and 45 degrees
    add up strictly between 0 and 90 degrees; yet the difference overflows
    to infinity, and whatever [tan] returns the call returns no finite
    value. *)
Lemma calculateDisanceToTargetMeters_not_finite :
  let ch := (- Binary64.max_float)%float in
  let th := Binary64.max_float in
  let cp := 0%float in
  let tp := Binary64.radians_45 in
  PrimFloat.is_zero (th - ch) = false
  /\ (0 <? cp + tp)%float = true
  /\ (cp + tp <? Binary64.radians_90)%float = true
  /\ ~ exists (libm_tan : float -> float) (r : float),
         classmethod (G := Reference.wpimath (Binary64.arith libm_tan))
           calculateDisanceToTargetMeters
           [VFloat64 libm_tan ch; VFloat64 libm_tan th;
            VFloat64 libm_tan cp; VFloat64 libm_tan tp]
         = Return (VFloat64 libm_tan r)
         /\ PrimFloat.is_finite r = true.
Proof.
  intros ch th cp tp. repeat split; try reflexivity.
  intros (libm_tan & r & Hr & Hf).
  rewrite calculateDisanceToTargetMeters_eq in Hr.
  change (sub (Binary64.arith libm_tan) th ch) with infinity in Hr.
  destruct (math_tan _ _) as [t|e]; [| discriminate].
  destruct (is_zero _ t); [discriminate |].
  injection Hr as <-.
  change (quot (Binary64.arith libm_tan) infinity t)
    with (infinity / t)%float in Hf.
  rewrite infinity_div_not_finite in Hf. discriminate.
Qed.

(** Nor do everyday heights make it finite: a camera at 0, a target at 1
    and the smallest positive pitch give an infinity. *)
Example calculateDisanceToTargetMeters_tiny_pitch :
  classmethod (G := Reference.wpimath (Binary64.arith Binary64.sample_tan))
    calculateDisanceToTargetMeters
    [VFloat64 Binary64.sample_tan 0%float; VFloat64 Binary64.sample_tan 1%float;
     VFloat64 Binary64.sample_tan 0%float;
     VFloat64 Binary64.sample_tan 0x1p-1074%float]
  = Return (VFloat64 Binary64.sample_tan infinity).
Proof. vm_compute. reflexivity. Qed.

(** Nor does a positive height difference make it positive: a target the
    smallest positive [float] above the camera, seen at 1.25 rad, gives a
    distance of [0.0]. *)
Example calculateDisanceToTargetMeters_underflow :
  (0 <? 0x1p-1074 - 0)%float = true
  /\ (0 <? 0 + 1.25)%float = true
  /\ (0 + 1.25 <? Binary64.radians_90)%float = true
  /\ classmethod
       (G := Reference.wpimath (Binary64.arith Binary64.sample_tan))
       calculateDisanceToTargetMeters
       [VFloat64 Binary64.sample_tan 0%float;
        VFloat64 Binary64.sample_tan 0x1p-1074%float;
        VFloat64 Binary64.sample_tan 0%float;
        VFloat64 Binary64.sample_tan 1.25%float]
     = Return (VFloat64 Binary64.sample_tan 0%float).
Proof. repeat split; vm_compute; reflexivity. Qed.

(** ** The camera-relative translation *)

Section Translation.

Context {A : Arith} {G : Geometry A}.

(** The call builds [Translation2d(yaw.cos() * d, yaw.sin() * d)]. *)
Lemma estimateCameraToTargetTranslation_eq (d : A) (yaw : Rotation2d G) :
  classmethod estimateCameraToTargetTranslation [VFloat d; VRotation2d yaw]
  = Return (VTranslation2d
              (translation2d_new G (mul A (rotation2d_cos G yaw) d)
                                   (mul A (rotation2d_sin G yaw) d))).
Proof. reflexivity. Qed.

End Translation.

(** C3. For every distance and every [Rotation2d] yaw,
    [estimateCameraToTargetTranslation] returns the [Translation2d]
    [(distance * cos(yaw), distance * sin(yaw))], in binary64 and in exact
    arithmetic.  In particular distance 5 with a yaw of 0 degrees (cosine 1,
    sine 0) gives (5, 0) in both; with a yaw of 90 degrees it gives (0, 5)
    in exact arithmetic (cosine 0, sine 1) and, in binary64 with the
    cosine as rounded, [(x, 5)] with [x] below 2^-51. *)
Theorem estimateCameraToTargetTranslation_spec :
  (forall libm_tan (G : Geometry (Binary64.arith libm_tan))
          (d : float) (yaw : Rotation2d G),
      classmethod estimateCameraToTargetTranslation
        [VFloat64 libm_tan d; VRotation2d yaw]
      = Return (VTranslation2d
                  (translation2d_new G (d * rotation2d_cos G yaw)%float
                                       (d * rotation2d_sin G yaw)%float)))
  /\ (forall (G : Geometry Exact.arith) (d : R) (yaw : Rotation2d G),
         classmethod estimateCameraToTargetTranslation
           [VReal d; VRotation2d yaw]
         = Return (VTranslation2d
                     (translation2d_new G (d * rotation2d_cos G yaw)%R
                                          (d * rotation2d_sin G yaw)%R)))
  /\ (forall libm_tan (G : Geometry (Binary64.arith libm_tan))
             (yaw : Rotation2d G),
         rotation2d_cos G yaw = 1%float -> rotation2d_sin G yaw = 0%float ->
         classmethod estimateCameraToTargetTranslation
           [VFloat64 libm_tan 5%float; VRotation2d yaw]
         = Return (VTranslation2d (translation2d_new G 5%float 0%float)))
  /\ (forall (G : Geometry Exact.arith) (yaw : Rotation2d G),
         rotation2d_cos G yaw = 1%R -> rotation2d_sin G yaw = 0%R ->
         classmethod estimateCameraToTargetTranslation
           [VReal 5%R; VRotation2d yaw]
         = Return (VTranslation2d (translation2d_new G 5%R 0%R)))
  /\ (forall (G : Geometry Exact.arith) (yaw : Rotation2d G),
         rotation2d_cos G yaw = 0%R -> rotation2d_sin G yaw = 1%R ->
         classmethod estimateCameraToTargetTranslation
           [VReal 5%R; VRotation2d yaw]
         = Return (VTranslation2d (translation2d_new G 0%R 5%R)))
  /\ (forall libm_tan (G : Geometry (Binary64.arith libm_tan))
             (yaw : Rotation2d G),
         rotation2d_cos G yaw = Binary64.cos_radians_90 ->
         rotation2d_sin G yaw = 1%float ->
         exists x : float,
           classmethod estimateCameraToTargetTranslation
             [VFloat64 libm_tan 5%float; VRotation2d yaw]
           = Return (VTranslation2d (translation2d_new G x 5%float))
           /\ (abs x <? 0x1p-51)%float = true).
Proof.
  repeat apply conj.
  - intros libm_tan G d yaw. rewrite estimateCameraToTargetTranslation_eq.
    cbn [mul Binary64.arith].
    now rewrite (float_mul_comm d (rotation2d_cos G yaw)),
      (float_mul_comm d (rotation2d_sin G yaw)).
  - intros G d yaw. rewrite estimateCameraToTargetTranslation_eq.
    cbn [mul Exact.arith].
    now rewrite (Rmult_comm d (rotation2d_cos G yaw)),
      (Rmult_comm d (rotation2d_sin G yaw)).
  - intros libm_tan G yaw Hc Hs.
    rewrite estimateCameraToTargetTranslation_eq, Hc, Hs. reflexivity.
  - intros G yaw Hc Hs.
    rewrite estimateCameraToTargetTranslation_eq, Hc, Hs.
    cbn [mul Exact.arith]. do 2 f_equal; f_equal; lra.
  - intros G yaw Hc Hs.
    rewrite estimateCameraToTargetTranslation_eq, Hc, Hs.
    cbn [mul Exact.arith]. do 2 f_equal; f_equal; lra.
  - intros libm_tan G yaw Hc Hs.
    exists (Binary64.cos_radians_90 * 5)%float. split.
    + rewrite estimateCameraToTargetTranslation_eq, Hc, Hs. reflexivity.
    + reflexivity.
Qed.

(** Distance 5 at a yaw of 0 degrees, in binary64. *)
Lemma estimateCameraToTargetTranslation_spec_witness :
  let libm_tan := Binary64.sample_tan in
  let A := Binary64.arith libm_tan in
  let G := Reference.wpimath A in
  let yaw : Rotation2d G := Reference.Build_rotation2d A 1%float 0%float in
  classmethod estimateCameraToTargetTranslation
    [VFloat64 libm_tan 5%float; VRotation2d yaw]
  = Return (VTranslation2d (translation2d_new G 5%float 0%float)).
Proof.
  intros libm_tan A G yaw.
  exact (proj1 (proj2 (proj2 estimateCameraToTargetTranslation_spec))
           libm_tan G yaw eq_refl eq_refl).
Defined.

(** * Further properties of the class *)

(** ** More of what the specification of the primitive floats gives *)

Lemma binary_round_aux_opp (s : bool) (m e : Z) (l : location) :
  binary_round_aux prec emax (negb s) m e l
  = SFopp (binary_round_aux prec emax s m e l).
Proof.
  unfold binary_round_aux.
  destruct (shr_fexp prec emax m e l) as [mrs' e'].
  destruct (shr_fexp prec emax _ e' loc_Exact) as [mrs'' e''].
  destruct (shr_m mrs''); try reflexivity.
  destruct (e'' <=? emax - prec)%Z; reflexivity.
Qed.

Lemma binary_round_opp (s : bool) (m : positive) (e : Z) :
  binary_round prec emax (negb s) m e = SFopp (binary_round prec emax s m e).
Proof.
  unfold binary_round. destruct (shl_align m e _) as [mz ez].
  apply binary_round_aux_opp.
Qed.

Lemma SF64add_comm (x y : spec_float) : SF64add x y = SF64add y x.
Proof.
  unfold SF64add, SFadd.
  destruct x as [s|s| |s m e], y as [s'|s'| |s' m' e']; try reflexivity;
    try (destruct s, s'; reflexivity).
  rewrite (Z.min_comm e' e), Z.add_comm. reflexivity.
Qed.

(** Addition of [float]s is commutative. *)
Lemma float_add_comm (x y : float) : (x + y)%float = (y + x)%float.
Proof. apply Prim2SF_inj. rewrite !add_spec. apply SF64add_comm. Qed.

(** Exchanging the operands of a subtraction negates the difference, but
    for a zero difference, which is [+0.0] either way. *)
Lemma SF64sub_swap (x y : spec_float) :
  SF64sub y x = SFopp (SF64sub x y)
  \/ (SF64sub x y = S754_zero false /\ SF64sub y x = S754_zero false).
Proof.
  unfold SF64sub, SFsub.
  destruct x as [s|s| |s m e], y as [s'|s'| |s' m' e'];
    try (left; reflexivity);
    try (destruct s, s'; (left; reflexivity) || (right; split; reflexivity)).
  rewrite (Z.min_comm e' e).
  set (a := cond_Zopp s _). set (b := cond_Zopp s' _).
  replace (b - a)%Z with (- (a - b))%Z by lia.
  destruct (a - b)%Z as [|p|p]; cbn.
  - right. split; reflexivity.
  - left. apply (binary_round_opp false).
  - left. change false with (negb true). rewrite binary_round_opp.
    destruct (binary_round prec emax true p _) as [[]|[]| |[] ? ?];
      reflexivity.
Qed.

Lemma float_sub_swap (x y : float) :
  PrimFloat.is_zero (x - y) = false -> (y - x)%float = (- (x - y))%float.
Proof.
  intros Hz. apply Prim2SF_inj. rewrite opp_spec, !sub_spec.
  rewrite is_zero_spec, sub_spec in Hz.
  destruct (SF64sub_swap (Prim2SF x) (Prim2SF y)) as [H | [H _]];
    [exact H | rewrite H in Hz; discriminate].
Qed.

Lemma SF64div_opp (x y : spec_float) :
  SF64div (SFopp x) y = SFopp (SF64div x y).
Proof.
  unfold SF64div, SFdiv.
  destruct x as [s|s| |s m e], y as [s'|s'| |s' m' e']; cbn;
    rewrite <- ?negb_xorb_l; try reflexivity.
  destruct (SFdiv_core_binary prec emax (Zpos m) e (Zpos m') e')
    as [[mz ez] lz].
  apply binary_round_aux_opp.
Qed.

(** The quotient of a negated dividend is the negated quotient. *)
Lemma float_div_opp (x y : float) : (- x / y)%float = (- (x / y))%float.
Proof.
  apply Prim2SF_inj. rewrite opp_spec, !div_spec, opp_spec.
  apply SF64div_opp.
Qed.

Lemma SF64mul_opp_r (x y : spec_float) :
  SF64mul x (SFopp y) = SFopp (SF64mul x y).
Proof.
  unfold SF64mul, SFmul.
  destruct x as [s|s| |s m e], y as [s'|s'| |s' m' e']; cbn;
    rewrite <- ?negb_xorb_r; try reflexivity.
  apply binary_round_aux_opp.
Qed.

(** The product by a negated factor is the negated product. *)
Lemma float_mul_opp_r (x y : float) : (x * - y)%float = (- (x * y))%float.
Proof.
  apply Prim2SF_inj. rewrite opp_spec, !mul_spec, opp_spec.
  apply SF64mul_opp_r.
Qed.

(** A difference with a NaN operand is a NaN. *)
Lemma float_sub_nan (x y : float) :
  PrimFloat.is_nan x = true \/ PrimFloat.is_nan y = true ->
  (x - y)%float = nan.
Proof.
  rewrite !is_nan_spec. intros H. apply Prim2SF_inj. rewrite sub_spec.
  change (Prim2SF nan) with S754_nan.
  destruct (Prim2SF x), (Prim2SF y), H; try discriminate; reflexivity.
Qed.

(** A NaN divided by anything is a NaN. *)
Lemma float_nan_div (t : float) : (nan / t)%float = nan.
Proof.
  apply Prim2SF_inj. rewrite div_spec.
  change (Prim2SF nan) with S754_nan. reflexivity.
Qed.

(** A finite [float] minus itself is [+0.0]. *)
Lemma float_sub_diag (x : float) :
  PrimFloat.is_finite x = true -> (x - x)%float = 0%float.
Proof.
  rewrite is_finite_spec. intros H. apply Prim2SF_inj. rewrite sub_spec.
  change (Prim2SF 0) with (S754_zero false).
  destruct (Prim2SF x) as [s|s| |s m e]; try discriminate.
  - destruct s; reflexivity.
  - unfold SF64sub, SFsub. now rewrite Z.sub_diag.
Qed.

(** Zero divided by a nonzero number or an infinity is a zero. *)
Lemma float_zero_div (t : float) :
  PrimFloat.is_zero t = false -> PrimFloat.is_nan t = false ->
  PrimFloat.is_zero (0 / t) = true.
Proof.
  rewrite !is_zero_spec, is_nan_spec, div_spec.
  change (Prim2SF 0) with (S754_zero false).
  destruct (Prim2SF t); try discriminate; reflexivity.
Qed.

(** ** The field-to-camera and field-to-robot estimators are unreachable *)

Section Unreachable.

Context {A : Arith} {G : Geometry A}.

(** Through the class, [estimateFieldToCamera] returns for no list of
    positional arguments.  With one argument the class is bound to
    [cameraToTarget] and the argument to [fieldToTarget]: the body runs and
    raises [AttributeError], for want of [transformBy] on the argument or of
    [inverse] on the class.  With any other number of arguments the call
    raises [TypeError]. *)
Theorem estimateFieldToCamera_any_arguments (args : list (value A G)) :
  classmethod estimateFieldToCamera args
  = Raise (if Nat.eqb (List.length args) 1 then AttributeError
           else TypeError).
Proof.
  destruct args as [|a [|b rest]]; [reflexivity | | reflexivity].
  destruct a; reflexivity.
Qed.

(** [estimateFieldToRobot] raises [TypeError] for every list of positional
    arguments: on a count other than three by its own signature, on three by
    the call it delegates to. *)
Theorem estimateFieldToRobot_any_arguments (args : list (value A G)) :
  classmethod estimateFieldToRobot args = Raise TypeError.
Proof.
  destruct args as [|a [|b [|c [|d rest]]]]; reflexivity.
Qed.

End Unreachable.

(** ** The distance estimator in binary64 *)

Section Binary64Symmetry.

Variable libm_tan : float -> float.

Context {G : Geometry (Binary64.arith libm_tan)}.

Local Open Scope float_scope.

(** The outcome of the call, in binary64. *)
Lemma binary64_distance_eq (ch th cp tp : float) :
  classmethod (G := G) calculateDisanceToTargetMeters
    [VFloat64 libm_tan ch; VFloat64 libm_tan th;
     VFloat64 libm_tan cp; VFloat64 libm_tan tp]
  = match Binary64.float_tan libm_tan (cp + tp) with
    | Raise e => Raise e
    | Return t =>
        if PrimFloat.is_zero t then Raise ZeroDivisionError
        else Return (VFloat64 libm_tan ((th - ch) / t))
    end.
Proof.
  exact (calculateDisanceToTargetMeters_eq
           (A := Binary64.arith libm_tan) ch th cp tp).
Qed.

(** The camera pitch and the target pitch are interchangeable: exchanging
    them gives the same value or the same exception. *)
Theorem calculateDisanceToTargetMeters_pitch_symmetry (ch th cp tp : float) :
  classmethod (G := G) calculateDisanceToTargetMeters
    [VFloat64 libm_tan ch; VFloat64 libm_tan th;
     VFloat64 libm_tan tp; VFloat64 libm_tan cp]
  = classmethod calculateDisanceToTargetMeters
      [VFloat64 libm_tan ch; VFloat64 libm_tan th;
       VFloat64 libm_tan cp; VFloat64 libm_tan tp].
Proof.
  rewrite !binary64_distance_eq, (float_add_comm tp cp). reflexivity.
Qed.

(** Exchanging two heights that differ negates the distance, and leaves an
    exception as it is. *)
Theorem calculateDisanceToTargetMeters_height_antisymmetry
    (ch th cp tp : float) :
  PrimFloat.is_zero (th - ch) = false ->
  (forall r : float,
      classmethod (G := G) calculateDisanceToTargetMeters
        [VFloat64 libm_tan ch; VFloat64 libm_tan th;
         VFloat64 libm_tan cp; VFloat64 libm_tan tp]
      = Return (VFloat64 libm_tan r) ->
      classmethod (G := G) calculateDisanceToTargetMeters
        [VFloat64 libm_tan th; VFloat64 libm_tan ch;
         VFloat64 libm_tan cp; VFloat64 libm_tan tp]
      = Return (VFloat64 libm_tan (- r)))
  /\ (forall e : exn,
         classmethod (G := G) calculateDisanceToTargetMeters
           [VFloat64 libm_tan ch; VFloat64 libm_tan th;
            VFloat64 libm_tan cp; VFloat64 libm_tan tp]
         = Raise e ->
         classmethod (G := G) calculateDisanceToTargetMeters
           [VFloat64 libm_tan th; VFloat64 libm_tan ch;
            VFloat64 libm_tan cp; VFloat64 libm_tan tp]
         = Raise e).
Proof.
  intros Hz.
  rewrite !binary64_distance_eq, (float_sub_swap th ch Hz).
  destruct (Binary64.float_tan libm_tan (cp + tp)) as [t|e];
    [destruct (PrimFloat.is_zero t) |]; split; intros ? [= <-];
    rewrite ?float_div_opp; reflexivity.
Qed.

(** A height that is not a number is not rejected: where the tangent is
    nonzero the call returns a NaN. *)
Theorem calculateDisanceToTargetMeters_nan_height (ch th cp tp t : float) :
  PrimFloat.is_nan ch = true \/ PrimFloat.is_nan th = true ->
  Binary64.float_tan libm_tan (cp + tp) = Return t ->
  PrimFloat.is_zero t = false ->
  classmethod (G := G) calculateDisanceToTargetMeters
    [VFloat64 libm_tan ch; VFloat64 libm_tan th;
     VFloat64 libm_tan cp; VFloat64 libm_tan tp]
  = Return (VFloat64 libm_tan nan).
Proof.
  intros Hn Ht Hz.
  rewrite binary64_distance_eq, Ht, Hz.
  rewrite (float_sub_nan th ch) by tauto.
  now rewrite float_nan_div.
Qed.

(** Without a height differential the call does not fail: a camera and a
    target at the same finite height give a zero distance, wherever the
    tangent is a nonzero number. *)
Theorem calculateDisanceToTargetMeters_equal_heights (h cp tp t : float) :
  PrimFloat.is_finite h = true ->
  Binary64.float_tan libm_tan (cp + tp) = Return t ->
  PrimFloat.is_zero t = false ->
  PrimFloat.is_nan t = false ->
  exists r : float,
    classmethod (G := G) calculateDisanceToTargetMeters
      [VFloat64 libm_tan h; VFloat64 libm_tan h;
       VFloat64 libm_tan cp; VFloat64 libm_tan tp]
    = Return (VFloat64 libm_tan r)
    /\ PrimFloat.is_zero r = true.
Proof.
  intros Hf Ht Hz Hn. exists (0 / t). split.
  - rewrite binary64_distance_eq, Ht, Hz, (float_sub_diag h Hf). reflexivity.
  - apply float_zero_div; assumption.
Qed.

End Binary64Symmetry.

(** Camera at 0.5 m and target at 2.5 m, then the other way round. *)
Lemma calculateDisanceToTargetMeters_height_antisymmetry_witness :
  let libm_tan := Binary64.sample_tan in
  classmethod (G := Reference.wpimath (Binary64.arith libm_tan))
    calculateDisanceToTargetMeters
    [VFloat64 libm_tan 2.5%float; VFloat64 libm_tan 0.5%float;
     VFloat64 libm_tan 0.25%float; VFloat64 libm_tan 0.5%float]
  = Return (VFloat64 libm_tan
              (- ((2.5 - 0.5) / libm_tan (0.25 + 0.5)))%float).
Proof.
  intros libm_tan.
  apply (proj1 (calculateDisanceToTargetMeters_height_antisymmetry libm_tan
                  (G := Reference.wpimath (Binary64.arith libm_tan))
                  0.5%float 2.5%float 0.25%float 0.5%float eq_refl));
    reflexivity.
Defined.

(** A camera height that is not a number. *)
Lemma calculateDisanceToTargetMeters_nan_height_witness :
  let libm_tan := Binary64.sample_tan in
  classmethod (G := Reference.wpimath (Binary64.arith libm_tan))
    calculateDisanceToTargetMeters
    [VFloat64 libm_tan nan; VFloat64 libm_tan 1%float;
     VFloat64 libm_tan 0%float; VFloat64 libm_tan 0.5%float]
  = Return (VFloat64 libm_tan nan).
Proof.
  intros libm_tan.
  apply (calculateDisanceToTargetMeters_nan_height libm_tan
           (G := Reference.wpimath (Binary64.arith libm_tan))
           nan 1%float 0%float 0.5%float (libm_tan 0.5%float));
    [left |..]; reflexivity.
Defined.

(** Camera and target both at 1.5 m. *)
Lemma calculateDisanceToTargetMeters_equal_heights_witness :
  let libm_tan := Binary64.sample_tan in
  exists r : float,
    classmethod (G := Reference.wpimath (Binary64.arith libm_tan))
      calculateDisanceToTargetMeters
      [VFloat64 libm_tan 1.5%float; VFloat64 libm_tan 1.5%float;
       VFloat64 libm_tan 0%float; VFloat64 libm_tan 0.5%float]
    = Return (VFloat64 libm_tan r)
    /\ PrimFloat.is_zero r = true.
Proof.
  intros libm_tan.
  apply (calculateDisanceToTargetMeters_equal_heights libm_tan
           (G := Reference.wpimath (Binary64.arith libm_tan))
           1.5%float 0%float 0.5%float (libm_tan 0.5%float)); reflexivity.
Defined.

(** ** The camera-relative translation: arguments and symmetries *)

Section TranslationArguments.

Context {A : Arith} {G : Geometry A}.

(** The yaw is used before the distance and is not checked: whatever is
    passed as distance, a yaw that is not a [Rotation2d] (an angle as a
    [float], say) makes the call raise [AttributeError], for want of
    [cos]. *)
Theorem estimateCameraToTargetTranslation_yaw_not_rotation
    (targetDistanceMeters yaw : value A G) :
  (forall r : Rotation2d G, yaw <> VRotation2d r) ->
  classmethod estimateCameraToTargetTranslation [targetDistanceMeters; yaw]
  = Raise AttributeError.
Proof.
  intros H. destruct yaw; try reflexivity.
  exfalso. eapply H. reflexivity.
Qed.

End TranslationArguments.

(** A yaw of half a radian passed as a [float]. *)
Lemma estimateCameraToTargetTranslation_yaw_not_rotation_witness :
  let libm_tan := Binary64.sample_tan in
  classmethod (G := Reference.wpimath (Binary64.arith libm_tan))
    estimateCameraToTargetTranslation
    [VFloat64 libm_tan 5%float; VFloat64 libm_tan 0.5%float]
  = Raise AttributeError.
Proof.
  intros libm_tan.
  apply estimateCameraToTargetTranslation_yaw_not_rotation.
  intros r. discriminate.
Defined.

(** In binary64 a negated distance gives the opposite translation: each
    coordinate is the negation of the coordinate the distance itself
    gives.  Negative distances are not rejected. *)
Theorem estimateCameraToTargetTranslation_negated_distance
    (libm_tan : float -> float) (G : Geometry (Binary64.arith libm_tan))
    (d : float) (yaw : Rotation2d G) :
  classmethod estimateCameraToTargetTranslation
    [VFloat64 libm_tan (- d)%float; VRotation2d yaw]
  = Return (VTranslation2d
              (translation2d_new G (- (rotation2d_cos G yaw * d))%float
                                   (- (rotation2d_sin G yaw * d))%float)).
Proof.
  rewrite estimateCameraToTargetTranslation_eq. cbn [mul Binary64.arith].
  now rewrite !float_mul_opp_r.
Qed.

(** ** The AprilTag estimator with one identity transform *)

Section AprilTagIdentity.

Context {A : Arith} {G : Geometry A}.

(** Where the identity transform is its own inverse and neutral on poses:
    with a camera at the tag (identity [cameraToTarget]) the estimate is the
    tag pose plus [cameraToRobot], and with a camera at the robot's origin
    (identity [cameraToRobot]) it is the tag pose plus the inverse of
    [cameraToTarget]. *)
Theorem estimateFieldToRobotAprilTag_one_identity
    (L : Transform3dLaws G) (tag : Pose3d G) (t : Transform3d G) :
  classmethod estimateFieldToRobotAprilTag
    [VTransform3d (transform3d_identity G); VPose3d tag; VTransform3d t]
  = Return (VPose3d (pose3d_add G tag t))
  /\ classmethod estimateFieldToRobotAprilTag
       [VTransform3d t; VPose3d tag; VTransform3d (transform3d_identity G)]
     = Return (VPose3d (pose3d_add G tag (transform3d_inverse G t))).
Proof.
  rewrite !estimateFieldToRobotAprilTag_eq.
  rewrite (inverse_identity3 G L), !(add_identity3 G L).
  split; reflexivity.
Qed.

End AprilTagIdentity.

(** A tag at (1, 2, 3) and a transform of one metre along the first axis. *)
Lemma estimateFieldToRobotAprilTag_one_identity_witness :
  let G := Reference.wpimath Exact.arith in
  let tag : Pose3d G :=
    Reference.Build_pose3d Exact.arith
      (Reference.Build_translation3d Exact.arith 1%R 2%R 3%R)
      (Reference.Build_quaternion Exact.arith 1%R 0%R 0%R 0%R) in
  let t : Transform3d G :=
    Reference.Build_transform3d Exact.arith
      (Reference.Build_translation3d Exact.arith 1%R 0%R 0%R)
      (Reference.Build_quaternion Exact.arith 1%R 0%R 0%R 0%R) in
  classmethod estimateFieldToRobotAprilTag
    [VTransform3d (transform3d_identity G); VPose3d tag; VTransform3d t]
  = Return (VPose3d (pose3d_add G tag t))
  /\ classmethod estimateFieldToRobotAprilTag
       [VTransform3d t; VPose3d tag; VTransform3d (transform3d_identity G)]
     = Return (VPose3d (pose3d_add G tag (transform3d_inverse G t))).
Proof.
  intros G tag t.
  exact (estimateFieldToRobotAprilTag_one_identity
           reference_transform3d_laws tag t).
Defined.

(** A finite [float] times [0.0] is a zero. *)
Lemma float_mul_zero (c : float) :
  PrimFloat.is_finite c = true -> PrimFloat.is_zero (c * 0) = true.
Proof.
  rewrite is_finite_spec, is_zero_spec, mul_spec.
  change (Prim2SF 0) with (S754_zero false).
  destruct (Prim2SF c); try discriminate; reflexivity.
Qed.

(** In binary64 a distance of [0.0] puts the target at the camera: both
    coordinates of the translation are zeros, for every yaw whose cosine and
    sine are finite. *)
Theorem estimateCameraToTargetTranslation_zero_distance
    (libm_tan : float -> float) (G : Geometry (Binary64.arith libm_tan))
    (yaw : Rotation2d G) :
  PrimFloat.is_finite (rotation2d_cos G yaw) = true ->
  PrimFloat.is_finite (rotation2d_sin G yaw) = true ->
  exists x y : float,
    classmethod estimateCameraToTargetTranslation
      [VFloat64 libm_tan 0%float; VRotation2d yaw]
    = Return (VTranslation2d (translation2d_new G x y))
    /\ PrimFloat.is_zero x = true /\ PrimFloat.is_zero y = true.
Proof.
  intros Hc Hs.
  exists (rotation2d_cos G yaw * 0)%float, (rotation2d_sin G yaw * 0)%float.
  split; [| split].
  - exact (estimateCameraToTargetTranslation_eq
             (A := Binary64.arith libm_tan) 0%float yaw).
  - apply float_mul_zero, Hc.
  - apply float_mul_zero, Hs.
Qed.

(** Distance zero along the yaw of cosine 0.6 and sine 0.8. *)
Lemma estimateCameraToTargetTranslation_zero_distance_witness :
  let libm_tan := Binary64.sample_tan in
  let A := Binary64.arith libm_tan in
  let G := Reference.wpimath A in
  let yaw : Rotation2d G := Reference.Build_rotation2d A 0x1.3333333333333p-1%float
      0x1.999999999999ap-1%float in
  exists x y : float,
    classmethod estimateCameraToTargetTranslation
      [VFloat64 libm_tan 0%float; VRotation2d yaw]
    = Return (VTranslation2d (translation2d_new G x y))
    /\ PrimFloat.is_zero x = true /\ PrimFloat.is_zero y = true.
Proof.
  intros libm_tan A G yaw.
  apply (estimateCameraToTargetTranslation_zero_distance libm_tan G yaw);
    reflexivity.
Defined.
